(** * cbz.page: the [PageInfo] content setter, loaders and saver

    A shallow embedding of [src/cbz/page.py].  The object is a record of the
    five attributes the class writes; the property setter is a computation in
    a state-and-exception monad over that record, written statement by
    statement as in the source.  The three third-party calls
    ([magic.from_buffer], [mimetypes.guess_extension], [imagesize.get]), the
    standard-library [base64.b64decode] and the constant
    [cbz.constants.IMAGE_FORMAT] are parameters of the development. *)

From Stdlib Require Import ZArith Lia.
From stdpp Require Import base strings list gmap pretty.

Open Scope Z_scope.
Open Scope string_scope.

(** ** Python data *)

Abbreviation byte := Byte.byte.
Abbreviation bytes := (list Byte.byte).

#[global] Instance byte_eq_dec : EqDecision byte := Byte.byte_eq_dec.

(** The Python objects that can end up in a numeric attribute.  [bool] is a
    subclass of [int]; every other class (float, NoneType, str, ...) is
    collected under [PyOther] with its [repr]. *)
Inductive pyval : Type :=
| PyInt (z : Z)
| PyBool (b : bool)
| PyOther (repr : string).

#[global] Instance pyval_eq_dec : EqDecision pyval.
Proof. solve_decision. Defined.

(** [isinstance(v, int)] *)
Definition isinstance_int (v : pyval) : bool :=
  match v with
  | PyInt _ | PyBool _ => true
  | PyOther _ => false
  end.

(** [len(value)] as a Python int *)
Definition len (value : bytes) : pyval := PyInt (Z.of_nat (length value)).

(** [x or default] on an optional string: [None] and the empty string are
    both falsy. *)
Definition py_or (x : option string) (default : string) : string :=
  match x with
  | Some s => if bool_decide (s = "") then default else s
  | None => default
  end.

(** ** Exceptions *)

(** Exceptions are kept apart by where they are raised: the three
    [raise]/[assert] statements of [page.py] itself, the attribute lookup of
    the getter, the file-system calls, and anything raised inside a library
    call ([LibError], with the library's name). *)
Inductive exn : Type :=
| AssertionError (msg : string)
| ValueError (msg : string)
| AttributeError (attr : string)
| TypeError (msg : string)
| FileNotFoundError (path : string)
| LibError (lib : string) (msg : string).

#[global] Instance exn_eq_dec : EqDecision exn.
Proof. solve_decision. Defined.

Inductive Result (A : Type) : Type :=
| Ok (a : A)
| Raise (e : exn).
Arguments Ok {A} a.
Arguments Raise {A} e.

#[global] Instance Result_ret : MRet Result := λ A a, Ok a.
#[global] Instance Result_bind : MBind Result := λ A B f r,
  match r with
  | Ok a => f a
  | Raise e => Raise e
  end.

(** What a library call does: return a value or throw. *)
Inductive ext_result (A : Type) : Type :=
| Returns (a : A)
| Throws (msg : string).
Arguments Returns {A} a.
Arguments Throws {A} msg.

(** ** The object *)

(** The attributes [page.py] reads and writes.  [suffix] and [__content] do
    not exist before the setter first assigns them ([None]); the three
    numeric attributes come from the base class initialiser. *)
Record PageInfo : Type := mkPageInfo {
  suffix : option string;
  image_width : pyval;
  image_height : pyval;
  image_size : pyval;
  __content : option bytes;
}.

#[global] Instance PageInfo_eq_dec : EqDecision PageInfo.
Proof. solve_decision. Defined.

(** ** The monad of methods: state [self] plus exceptions.

    A raised exception keeps the state reached so far: attribute writes made
    before the [raise] are not undone. *)
Definition M (A : Type) : Type := PageInfo → PageInfo * Result A.

#[global] Instance M_ret : MRet M := λ A a self, (self, Ok a).
#[global] Instance M_bind : MBind M := λ A B f m self,
  match m self with
  | (self', Ok a) => f a self'
  | (self', Raise e) => (self', Raise e)
  end.

Definition raise {A : Type} (e : exn) : M A := λ self, (self, Raise e).

(** [assert cond, msg] *)
Definition assert (cond : bool) (msg : string) : M unit :=
  if cond then mret tt else raise (AssertionError msg).

(** A call into library [lib]. *)
Definition call {A : Type} (lib : string) (r : ext_result A) : M A :=
  match r with
  | Returns a => mret a
  | Throws msg => raise (LibError lib msg)
  end.

(** Attribute assignments [self.x = v]. *)
Definition set_suffix (v : string) : M unit := λ self,
  (mkPageInfo (Some v) (image_width self) (image_height self)
     (image_size self) (__content self), Ok tt).
Definition set_image_width (v : pyval) : M unit := λ self,
  (mkPageInfo (suffix self) v (image_height self)
     (image_size self) (__content self), Ok tt).
Definition set_image_height (v : pyval) : M unit := λ self,
  (mkPageInfo (suffix self) (image_width self) v
     (image_size self) (__content self), Ok tt).
Definition set_image_size (v : pyval) : M unit := λ self,
  (mkPageInfo (suffix self) (image_width self) (image_height self)
     v (__content self), Ok tt).
Definition set___content (v : bytes) : M unit := λ self,
  (mkPageInfo (suffix self) (image_width self) (image_height self)
     (image_size self) (Some v), Ok tt).

(** Attribute reads; a missing attribute raises [AttributeError]. *)
Definition get_suffix : M string := λ self,
  match suffix self with
  | Some s => (self, Ok s)
  | None => (self, Raise (AttributeError "suffix"))
  end.

(** The [content] property getter: [return self.__content]. *)
Definition content : M bytes := λ self,
  match __content self with
  | Some c => (self, Ok c)
  | None => (self, Raise (AttributeError "_PageInfo__content"))
  end.

Section Page.

(** [magic.from_buffer(value, mime=True)] *)
Variable magic_from_buffer : bytes → ext_result string.
(** [mimetypes.guess_extension(filetype)] *)
Variable guess_extension : string → option string.
(** [imagesize.get(file_io)] on a [BytesIO] over the buffer, positioned at
    0, followed by the unpacking into [width, height]. *)
Variable imagesize_get : bytes → ext_result (pyval * pyval).
(** [base64.b64decode(data)] on a [str] *)
Variable b64decode : string → ext_result bytes.
(** [cbz.constants.IMAGE_FORMAT] *)
Variable IMAGE_FORMAT : list string.

(** The extension derived on line 54. *)
Definition derived_suffix (filetype : string) : string :=
  py_or (guess_extension filetype) ".bin".

(** Lines 61-62: both dimensions are replaced by 0 unless both are ints. *)
Definition checked_dimensions (wh : pyval * pyval) : pyval * pyval :=
  if negb (isinstance_int wh.1) || negb (isinstance_int wh.2)
  then (PyInt 0, PyInt 0)
  else wh.

(** [PageInfo.content] setter, lines 53-67. *)
Definition content_setter (value : bytes) : M unit :=
  filetype ← call "magic" (magic_from_buffer value);
  set_suffix (derived_suffix filetype);;
  sfx ← get_suffix;
  assert (bool_decide (sfx ∈ IMAGE_FORMAT))
         ("Unsupported image format: " +:+ sfx);;
  probed ← call "imagesize" (imagesize_get value);
  let '(width, height) := checked_dimensions probed in
  set_image_width width;;
  set_image_height height;;
  set_image_size (len value);;
  set___content value.

(** [PageInfo.__init__], lines 31-32.  [self] is the object as the base
    class initialiser [PageModel.__init__] left it (keyword arguments
    applied); when the setter raises, the exception leaves [__init__] and
    the caller gets no object. *)
Definition PageInfo_init (self : PageInfo) (value : bytes) : Result PageInfo :=
  match content_setter value self with
  | (self', Ok _) => Ok self'
  | (_, Raise e) => Raise e
  end.

(** The objects that live somewhere in a run: one that [__init__]
    returned, and the same object after any further assignment to
    [content], whether the assignment returned or raised (a caller that
    catches the exception still holds the object). *)
Inductive reachable : PageInfo → Prop :=
| reach_init self value s :
    PageInfo_init self value = Ok s → reachable s
| reach_replace s value :
    reachable s → reachable (content_setter value s).1.

(** *** [loads] *)

(** The argument of [loads]: a [str], a [bytes], or an object of another
    class (given by its [repr]). *)
Inductive loads_arg : Type :=
| DataStr (s : string)
| DataBytes (b : bytes)
| DataOther (repr : string).

(** [{data!r}]; the quoting of a [str] is approximated, the branch that
    prints it never sees one. *)
Definition repr_data (data : loads_arg) : string :=
  match data with
  | DataStr s => "'" +:+ s +:+ "'"
  | DataBytes _ => "b'...'"
  | DataOther r => r
  end.

(** [PageInfo.loads], lines 84-88. *)
Definition loads (self : PageInfo) (data : loads_arg) : Result PageInfo :=
  data ← match data with
         | DataStr s =>
             match b64decode s with
             | Returns b => Ok (DataBytes b)
             | Throws msg => Raise (LibError "base64" msg)
             end
         | _ => Ok data
         end;
  match data with
  | DataBytes b => PageInfo_init self b
  | _ => Raise (ValueError
                  ("Expecting Bytes or Base64 input, got " +:+ repr_data data))
  end.

(** *** [load] and [save] *)

(** The [path] argument: a [str], a [pathlib.Path], or something else. *)
Inductive path_arg : Type :=
| PathStr (p : string)
| PathObj (p : string)
| PathOther (repr : string).

(** [PageInfo.load], lines 106-109.  The file system maps a path to the
    bytes stored there. *)
Definition load (fs : gmap string bytes) (self : PageInfo) (path : path_arg)
  : Result PageInfo :=
  match path with
  | PathOther r =>
      Raise (ValueError ("Expecting Path object or path string, got " +:+ r))
  | PathStr p | PathObj p =>
      match fs !! p with
      | None => Raise (FileNotFoundError p)
      | Some data => PageInfo_init self data
      end
  end.

(** [PageInfo.save], lines 118-119: [open(mode="wb")] creates or truncates
    the file, then the getter is read and its bytes written.  Write errors
    of the operating system are outside this file system. *)
Definition save (self : PageInfo) (path : path_arg) (fs : gmap string bytes)
  : gmap string bytes * Result unit :=
  match path with
  | PathOther r =>
      (fs, Raise (TypeError "expected str, bytes or os.PathLike object"))
  | PathStr p | PathObj p =>
      let opened := <[p := []]> fs in
      match content self with
      | (_, Ok c) => (<[p := c]> opened, Ok tt)
      | (_, Raise e) => (opened, Raise e)
      end
  end.

End Page.

Arguments reach_init {_ _ _ _} self value s _.
Arguments reach_replace {_ _ _ _} s value _.

(** ** Observations used in the statements *)

(** A Python int that is not negative. *)
Definition nonnegative_int (v : pyval) : bool :=
  match v with
  | PyInt z => (0 <=? z)%Z
  | PyBool _ => true
  | PyOther _ => false
  end.

(** The result is the [ValueError] that [loads] raises on line 87. *)
Definition raises_ValueError {A : Type} (r : Result A) : bool :=
  match r with
  | Raise (ValueError _) => true
  | _ => false
  end.

(** The object once line 54 has run. *)
Definition with_suffix (sfx : string) (self : PageInfo) : PageInfo :=
  mkPageInfo (Some sfx) (image_width self) (image_height self)
    (image_size self) (__content self).

(** The object once line 67 has run. *)
Definition committed (sfx : string) (wh : pyval * pyval) (value : bytes)
  : PageInfo :=
  mkPageInfo (Some sfx) (checked_dimensions wh).1 (checked_dimensions wh).2
    (len value) (Some value).

(** The size invariant of one object. *)
Definition size_matches (s : PageInfo) : Prop :=
  ∃ c, __content s = Some c ∧ image_size s = PyInt (Z.of_nat (length c)).

(** The path a [path] argument names, when it is a [str] or a [Path]. *)
Definition path_string (path : path_arg) : option string :=
  match path with
  | PathStr p | PathObj p => Some p
  | PathOther _ => None
  end.

(** Every attribute but [suffix] is what the libraries derive from the
    stored content, and that content passes the allow-list. *)
Definition derived_from_content
    (magic_from_buffer : bytes → ext_result string)
    (guess_extension : string → option string)
    (imagesize_get : bytes → ext_result (pyval * pyval))
    (IMAGE_FORMAT : list string) (s : PageInfo) : Prop :=
  ∃ c filetype wh,
    __content s = Some c
    ∧ magic_from_buffer c = Returns filetype
    ∧ derived_suffix guess_extension filetype ∈ IMAGE_FORMAT
    ∧ imagesize_get c = Returns wh
    ∧ image_width s = (checked_dimensions wh).1
    ∧ image_height s = (checked_dimensions wh).2
    ∧ image_size s = len c.

(** ** The allow-list *)

(** Modelled from the spec: the constant [IMAGE_FORMAT] of
    [cbz/constants.py], which is not among the sources.  The spec describes
    it as a fixed allow-list of raster formats (JPEG, PNG, GIF, WEBP, BMP)
    held as canonical lower-case extensions such as [.jpg] and [.png]. *)
Definition IMAGE_FORMAT_spec : list string :=
  [".jpg"; ".png"; ".gif"; ".webp"; ".bmp"].

(** ** Stand-ins for the libraries, for concrete runs

    Cut-down versions of the three libraries, enough to run the methods on
    GIF, PNG, text and empty buffers: libmagic's answers for those buffers,
    the corresponding rows of the [mimetypes] table, and the GIF and PNG
    branches of [imagesize.get] with its [(-1, -1)] answer for a header it
    does not recognise. *)
Module Ref.

(** [b"..."] *)
Definition b (s : string) : bytes := String.list_byte_of_string s.

(** [data.startswith(prefix)] *)
Definition startswith (prefix data : bytes) : bool :=
  bool_decide (take (length prefix) data = prefix).

(** [data[i:j]] *)
Definition slice (i j : nat) (data : bytes) : bytes :=
  take (j - i) (drop i data).

Definition png_signature : bytes :=
  [Byte.x89; Byte.x50; Byte.x4e; Byte.x47;
   Byte.x0d; Byte.x0a; Byte.x1a; Byte.x0a].

Definition printable (c : byte) : bool :=
  let n := Z.of_N (Byte.to_N c) in
  ((32 <=? n)%Z && (n <? 127)%Z) || (n =? 9)%Z || (n =? 10)%Z || (n =? 13)%Z.

Definition magic_from_buffer (value : bytes) : ext_result string :=
  Returns
    (if bool_decide (value = []) then "application/x-empty"
     else if startswith (b "GIF8") value then "image/gif"
     else if startswith png_signature value then "image/png"
     else if forallb printable value then "text/plain"
     else "application/octet-stream").

Definition guess_extension (filetype : string) : option string :=
  if bool_decide (filetype = "image/gif") then Some ".gif"
  else if bool_decide (filetype = "image/png") then Some ".png"
  else if bool_decide (filetype = "text/plain") then Some ".txt"
  else if bool_decide (filetype = "application/octet-stream") then Some ".bin"
  else None.

(** Big-endian and little-endian unsigned reads, and the signed 16-bit
    little-endian read of [struct.unpack("<h", ...)]. *)
Definition u_be (bs : bytes) : Z :=
  fold_left (λ acc c, acc * 256 + Z.of_N (Byte.to_N c)) bs 0.
Definition u_le (bs : bytes) : Z := u_be (rev bs).
Definition s16_le (bs : bytes) : Z :=
  let u := u_le bs in if (u <? 32768)%Z then u else u - 65536.

Definition imagesize_get (value : bytes) : ext_result (pyval * pyval) :=
  let head := take 31 value in
  let size := length head in
  if (10 <=? size)%nat
     && (bool_decide (slice 0 6 head = b "GIF87a")
         || bool_decide (slice 0 6 head = b "GIF89a"))
  then Returns (PyInt (s16_le (slice 6 8 head)),
                PyInt (s16_le (slice 8 10 head)))
  else if (24 <=? size)%nat && startswith png_signature head
          && bool_decide (slice 12 16 head = b "IHDR")
  then Returns (PyInt (u_be (slice 16 20 head)),
                PyInt (u_be (slice 20 24 head)))
  else if (16 <=? size)%nat && startswith png_signature head
  then Returns (PyInt (u_be (slice 8 12 head)),
                PyInt (u_be (slice 12 16 head)))
  else Returns (PyInt (-1), PyInt (-1)).

(** The setter and the initialiser over these stand-ins and the spec's
    allow-list. *)
Definition content_setter : bytes → M unit :=
  content_setter magic_from_buffer guess_extension imagesize_get
    IMAGE_FORMAT_spec.
Definition PageInfo_init : PageInfo → bytes → Result PageInfo :=
  PageInfo_init magic_from_buffer guess_extension imagesize_get
    IMAGE_FORMAT_spec.

(** An object as the base class leaves it: numeric attributes at their
    defaults, [suffix] and [__content] not yet assigned. *)
Definition blank : PageInfo :=
  mkPageInfo None (PyInt 0) (PyInt 0) (PyInt 0) None.

(** A GIF header announcing 10 x 20 pixels. *)
Definition gif_10x20 : bytes :=
  b "GIF89a" ++ [Byte.x0a; Byte.x00; Byte.x14; Byte.x00;
                 Byte.x80; Byte.x00; Byte.x00].

(** The same header cut after the width field. *)
Definition gif_truncated : bytes :=
  b "GIF89a" ++ [Byte.x0a; Byte.x00].

Definition text_hello : bytes := b "hello".

(** The object built from [gif_10x20]. *)
Definition gif_page : PageInfo :=
  mkPageInfo (Some ".gif") (PyInt 10) (PyInt 20) (PyInt 13) (Some gif_10x20).

(** [gif_page] after [gif_page.content = b"hello"] raised. *)
Definition gif_page_after_text : PageInfo :=
  mkPageInfo (Some ".txt") (PyInt 10) (PyInt 20) (PyInt 13) (Some gif_10x20).

Definition reachable : PageInfo → Prop :=
  reachable magic_from_buffer guess_extension imagesize_get
    IMAGE_FORMAT_spec.
Definition load : gmap string bytes → PageInfo → path_arg → Result PageInfo :=
  load magic_from_buffer guess_extension imagesize_get IMAGE_FORMAT_spec.

(** [base64.b64decode] on a [str], in its default non-validating mode: the
    string must be ASCII; characters outside the alphabet are skipped;
    padding ends the data once a group is complete; a group left incomplete
    is an error. *)
Definition b64_value (c : byte) : option Z :=
  let n := Z.of_N (Byte.to_N c) in
  if (65 <=? n)%Z && (n <=? 90)%Z then Some (n - 65)
  else if (97 <=? n)%Z && (n <=? 122)%Z then Some (n - 71)
  else if (48 <=? n)%Z && (n <=? 57)%Z then Some (n + 4)
  else if (n =? 43)%Z then Some 62
  else if (n =? 47)%Z then Some 63
  else None.

Definition byte_of_Z (z : Z) : byte :=
  default Byte.x00 (Byte.of_N (Z.to_N (z `mod` 256))).

Fixpoint a2b_base64 (data : bytes) (quad_pos : nat) (leftchar : Z)
    (pads : nat) (out : bytes) : ext_result bytes :=
  match data with
  | [] =>
      match quad_pos with
      | 0%nat => Returns out
      | 1%nat =>
          Throws ("Invalid base64-encoded string: number of data characters ("
                  +:+ pretty (length out / 3 * 4 + 1)%nat
                  +:+ ") cannot be 1 more than a multiple of 4")
      | _ => Throws "Incorrect padding"
      end
  | c :: rest =>
      if bool_decide (c = Byte.x3d) then
        if (2 <=? quad_pos)%nat then
          if (4 <=? quad_pos + S pads)%nat then Returns out
          else a2b_base64 rest quad_pos leftchar (S pads) out
        else a2b_base64 rest quad_pos leftchar pads out
      else
        match b64_value c with
        | None => a2b_base64 rest quad_pos leftchar pads out
        | Some v =>
            match quad_pos with
            | 0%nat => a2b_base64 rest 1 v 0 out
            | 1%nat =>
                a2b_base64 rest 2 (Z.land v 15) 0
                  (out ++ [byte_of_Z (Z.lor (Z.shiftl leftchar 2)
                                            (Z.shiftr v 4))])
            | 2%nat =>
                a2b_base64 rest 3 (Z.land v 3) 0
                  (out ++ [byte_of_Z (Z.lor (Z.shiftl leftchar 4)
                                            (Z.shiftr v 2))])
            | _ =>
                a2b_base64 rest 0 0 0
                  (out ++ [byte_of_Z (Z.lor (Z.shiftl leftchar 6) v)])
            end
        end
  end.

Definition b64decode (data : string) : ext_result bytes :=
  let raw := String.list_byte_of_string data in
  if forallb (λ c, (Z.of_N (Byte.to_N c) <? 128)%Z) raw
  then a2b_base64 raw 0 0 0 []
  else Throws "string argument should contain only ASCII characters".

Definition loads : PageInfo → loads_arg → Result PageInfo :=
  loads magic_from_buffer guess_extension imagesize_get b64decode
    IMAGE_FORMAT_spec.

(** [base64.b64encode(gif_10x20)] *)
Definition gif_10x20_base64 : string := "R0lGODlhCgAUAIAAAA==".

End Ref.

(** * Facts about the setter *)

Section PageFacts.

Variable magic_from_buffer : bytes → ext_result string.
Variable guess_extension : string → option string.
Variable imagesize_get : bytes → ext_result (pyval * pyval).
Variable b64decode : string → ext_result bytes.
Variable IMAGE_FORMAT : list string.

Local Abbreviation derived := (derived_suffix guess_extension).
Local Abbreviation setter :=
  (content_setter magic_from_buffer guess_extension imagesize_get
     IMAGE_FORMAT).
Local Abbreviation init :=
  (PageInfo_init magic_from_buffer guess_extension imagesize_get
     IMAGE_FORMAT).
Local Abbreviation reach :=
  (reachable magic_from_buffer guess_extension imagesize_get IMAGE_FORMAT).

(** One run of the setter, by the three places where it can stop. *)
Lemma setter_run value self :
  setter value self =
    match magic_from_buffer value with
    | Throws msg => (self, Raise (LibError "magic" msg))
    | Returns filetype =>
        if bool_decide (derived filetype ∈ IMAGE_FORMAT) then
          match imagesize_get value with
          | Throws msg =>
              (with_suffix (derived filetype) self,
               Raise (LibError "imagesize" msg))
          | Returns wh =>
              (committed (derived filetype) wh value, Ok tt)
          end
        else
          (with_suffix (derived filetype) self,
           Raise (AssertionError
                    ("Unsupported image format: " +:+ derived filetype)))
    end.
Proof.
  unfold content_setter, mbind, M_bind, call.
  destruct (magic_from_buffer value) as [filetype|msg]; [|reflexivity].
  cbn. case_bool_decide; cbn; [|reflexivity].
  destruct (imagesize_get value) as [wh|msg]; cbn; [|reflexivity].
  unfold committed. destruct (checked_dimensions wh); reflexivity.
Qed.

Lemma setter_ok_inv value self self' :
  setter value self = (self', Ok tt) →
  ∃ filetype wh,
    magic_from_buffer value = Returns filetype
    ∧ derived filetype ∈ IMAGE_FORMAT
    ∧ imagesize_get value = Returns wh
    ∧ self' = committed (derived filetype) wh value.
Proof.
  rewrite setter_run.
  destruct (magic_from_buffer value) as [filetype|msg]; [|discriminate].
  case_bool_decide as Hin; [|discriminate].
  destruct (imagesize_get value) as [wh|msg]; [|discriminate].
  intros [= <-]. by exists filetype, wh.
Qed.

Lemma setter_raise_inv value self self' e :
  setter value self = (self', Raise e) →
  (self' = self
   ∧ ∃ msg, magic_from_buffer value = Throws msg ∧ e = LibError "magic" msg)
  ∨ (∃ filetype,
       magic_from_buffer value = Returns filetype
       ∧ self' = with_suffix (derived filetype) self
       ∧ (((derived filetype ∉ IMAGE_FORMAT)
           ∧ e = AssertionError
                   ("Unsupported image format: " +:+ derived filetype))
          ∨ ((derived filetype ∈ IMAGE_FORMAT)
             ∧ ∃ msg, imagesize_get value = Throws msg
                      ∧ e = LibError "imagesize" msg))).
Proof.
  rewrite setter_run.
  destruct (magic_from_buffer value) as [filetype|msg].
  - case_bool_decide as Hin.
    + destruct (imagesize_get value) as [wh|msg]; [discriminate|].
      intros [= <- <-]. right. exists filetype. eauto 10.
    + intros [= <- <-]. right. exists filetype. eauto 10.
  - intros [= <- <-]. left. eauto.
Qed.

Lemma init_ok value self s :
  init self value = Ok s ↔ setter value self = (s, Ok tt).
Proof.
  unfold PageInfo_init.
  destruct (setter value self) as [s' [[]|e]]; split; congruence.
Qed.


Lemma committed_size_matches sfx wh value :
  size_matches (committed sfx wh value).
Proof. by exists value. Qed.

Lemma setter_preserves_size_matches value s :
  size_matches s → size_matches (setter value s).1.
Proof.
  intros Hs. destruct (setter value s) as [s' [[]|e]] eqn:Hrun; cbn.
  - apply setter_ok_inv in Hrun as (ft & wh & _ & _ & _ & ->).
    apply committed_size_matches.
  - apply setter_raise_inv in Hrun
      as [[-> _]|(ft & _ & -> & _)]; [done|].
    destruct Hs as (c & Hc & Hsz). by exists c.
Qed.

(** C9. When an assignment to [content] raises (the allow-list assertion,
    the dimension probe, or the sniffer), the attributes [__content],
    [image_width], [image_height] and [image_size] keep the values they had
    before; [suffix] either keeps its value too or holds the extension just
    derived from the new bytes. *)
Theorem failed_assignment_frame value self self' e :
  content_setter magic_from_buffer guess_extension imagesize_get IMAGE_FORMAT
    value self = (self', Raise e) →
  __content self' = __content self
  ∧ image_width self' = image_width self
  ∧ image_height self' = image_height self
  ∧ image_size self' = image_size self
  ∧ (suffix self' = suffix self
     ∨ ∃ filetype,
         magic_from_buffer value = Returns filetype
         ∧ suffix self' = Some (derived_suffix guess_extension filetype)).
Proof.
  intros Hrun.
  apply setter_raise_inv in Hrun as [[-> _]|(ft & Hft & -> & _)].
  - repeat split; by left.
  - repeat split. right. by exists ft.
Qed.

(** C6. Every object that exists in a run (returned by the initialiser,
    then after any number of assignments to [content], returned or raised)
    has [image_size] equal to the length of its content. *)
Theorem reachable_image_size s :
  reachable magic_from_buffer guess_extension imagesize_get IMAGE_FORMAT s →
  ∃ c, __content s = Some c ∧ image_size s = PyInt (Z.of_nat (length c)).
Proof.
  induction 1 as [self value s Hinit|s value _ IH].
  - apply init_ok, setter_ok_inv in Hinit as (ft & wh & _ & _ & _ & ->).
    apply committed_size_matches.
  - by apply setter_preserves_size_matches.
Qed.

(** C8. Two constructions from the same bytes, on whatever objects the base
    class handed over, both raise the same exception or both return objects
    with the same [suffix], [image_width], [image_height], [image_size] and
    content. *)
Theorem construction_deterministic self1 self2 value :
  match
    PageInfo_init magic_from_buffer guess_extension imagesize_get
      IMAGE_FORMAT self1 value,
    PageInfo_init magic_from_buffer guess_extension imagesize_get
      IMAGE_FORMAT self2 value
  with
  | Ok s1, Ok s2 =>
      suffix s1 = suffix s2
      ∧ image_width s1 = image_width s2
      ∧ image_height s1 = image_height s2
      ∧ image_size s1 = image_size s2
      ∧ __content s1 = __content s2
  | Raise e1, Raise e2 => e1 = e2
  | _, _ => False
  end.
Proof.
  unfold PageInfo_init. rewrite !setter_run.
  destruct (magic_from_buffer value) as [filetype|msg]; [|reflexivity].
  case_bool_decide; [|reflexivity].
  destruct (imagesize_get value) as [wh|msg]; [|reflexivity].
  repeat split.
Qed.

Lemma checked_dimensions_int wh :
  isinstance_int (checked_dimensions wh).1 = true
  ∧ isinstance_int (checked_dimensions wh).2 = true.
Proof.
  unfold checked_dimensions.
  destruct wh as [[]  []]; cbn; by split.
Qed.

(** C2, as the code has it.  When the sniffed format is allow-listed and
    the probe returns a pair, construction succeeds and [image_width] and
    [image_height] are Python ints: both 0 when either probed value is not
    an int, and otherwise exactly the probed pair, whatever its sign. *)
Theorem dimensions_checked_by_type self value filetype w h :
  magic_from_buffer value = Returns filetype →
  derived_suffix guess_extension filetype ∈ IMAGE_FORMAT →
  imagesize_get value = Returns (w, h) →
  ∃ s, PageInfo_init magic_from_buffer guess_extension imagesize_get
         IMAGE_FORMAT self value = Ok s
       ∧ isinstance_int (image_width s) = true
       ∧ isinstance_int (image_height s) = true
       ∧ (image_width s, image_height s) =
           if isinstance_int w && isinstance_int h then (w, h)
           else (PyInt 0, PyInt 0).
Proof.
  intros Hft Hin Hwh.
  exists (committed (derived filetype) (w, h) value).
  split.
  { apply init_ok. rewrite setter_run, Hft, Hwh.
    by rewrite bool_decide_eq_true_2. }
  cbn. destruct (checked_dimensions_int (w, h)) as [Hw Hh].
  repeat split; [done..|].
  unfold checked_dimensions; cbn.
  by destruct (isinstance_int w), (isinstance_int h).
Qed.

(** An exception of the probe ends the construction. *)
Lemma probe_exception_propagates self value filetype msg :
  magic_from_buffer value = Returns filetype →
  derived filetype ∈ IMAGE_FORMAT →
  imagesize_get value = Throws msg →
  init self value = Raise (LibError "imagesize" msg).
Proof.
  intros Hft Hin Hthrow. unfold PageInfo_init.
  rewrite setter_run, Hft, Hthrow. by rewrite bool_decide_eq_true_2.
Qed.

(** The setter never raises the [ValueError] of the loaders. *)
Lemma init_not_ValueError self value :
  raises_ValueError (init self value) = false.
Proof.
  unfold PageInfo_init. rewrite setter_run.
  destruct (magic_from_buffer value) as [filetype|msg]; [|reflexivity].
  case_bool_decide; [|reflexivity].
  by destruct (imagesize_get value).
Qed.

(** C10. [loads] on a [bytes] is the construction from those very bytes;
    [loads] on a [str] is the construction from its base64 decoding (or the
    decoder's own exception); and on neither kind of input does [loads]
    end in the [ValueError] of line 87, which only an argument of another
    class reaches. *)
Theorem loads_by_input_type self :
  let run_loads :=
    loads magic_from_buffer guess_extension imagesize_get b64decode
      IMAGE_FORMAT self in
  let construct :=
    PageInfo_init magic_from_buffer guess_extension imagesize_get
      IMAGE_FORMAT self in
  (∀ b, run_loads (DataBytes b) = construct b)
  ∧ (∀ s, run_loads (DataStr s) =
          match b64decode s with
          | Returns b => construct b
          | Throws msg => Raise (LibError "base64" msg)
          end)
  ∧ (∀ b, raises_ValueError (run_loads (DataBytes b)) = false)
  ∧ (∀ s, raises_ValueError (run_loads (DataStr s)) = false)
  ∧ (∀ r, run_loads (DataOther r) =
          Raise (ValueError ("Expecting Bytes or Base64 input, got " +:+ r))).
Proof.
  cbv zeta. repeat split.
  - intros s. unfold loads. by destruct (b64decode s).
  - intros b. apply init_not_ValueError.
  - intros s. unfold loads. destruct (b64decode s); cbn; [|done].
    apply init_not_ValueError.
Qed.

End PageFacts.

(** * Facts that quantify over the libraries and the allow-list *)

Lemma unmapped_type_rejected_by magic guess probe IMAGE_FORMAT self value filetype :
  ".bin" ∉ IMAGE_FORMAT →
  magic value = Returns filetype →
  guess filetype = None →
  content_setter magic guess probe IMAGE_FORMAT value self =
    (with_suffix ".bin" self,
     Raise (AssertionError "Unsupported image format: .bin")).
Proof.
  intros Hbin Hft Hnone. rewrite setter_run, Hft.
  unfold derived_suffix. rewrite Hnone. cbn.
  by rewrite bool_decide_eq_false_2.
Qed.

Lemma bin_not_in_spec_allow_list : ".bin" ∉ IMAGE_FORMAT_spec.
Proof.
  apply (bool_decide_eq_false_1 (".bin" ∈ IMAGE_FORMAT_spec)). reflexivity.
Qed.

(** C5. When the sniffed MIME type has no extension ([guess_extension]
    returns [None]), the derived suffix is [.bin]; [.bin] is not in the
    allow-list, so the assertion fails and construction raises. *)
Theorem unmapped_type_falls_back_to_bin magic guess probe self value filetype :
  magic value = Returns filetype →
  guess filetype = None →
  derived_suffix guess filetype = ".bin"
  ∧ (".bin" ∉ IMAGE_FORMAT_spec)
  ∧ PageInfo_init magic guess probe IMAGE_FORMAT_spec self value =
      Raise (AssertionError "Unsupported image format: .bin").
Proof.
  intros Hft Hnone. split; [|split].
  - unfold derived_suffix. by rewrite Hnone.
  - apply bin_not_in_spec_allow_list.
  - unfold PageInfo_init.
    by rewrite (unmapped_type_rejected_by _ _ _ _ _ _ filetype
                  bin_not_in_spec_allow_list Hft Hnone).
Qed.

(** C4, as the code has it.  On the empty buffer: when the sniffer returns a
    type, line 54 maps it, and a derived suffix outside the allow-list ends
    construction in the [AssertionError] of line 55, the one every allow-list
    rejection raises; only when the sniffer itself throws does construction
    end in the sniffer's exception, and then no mapping has any effect on
    the outcome. *)
Theorem empty_input_failure magic guess probe IMAGE_FORMAT self :
  (∀ filetype,
     magic [] = Returns filetype →
     derived_suffix guess filetype ∉ IMAGE_FORMAT →
     PageInfo_init magic guess probe IMAGE_FORMAT self [] =
       Raise (AssertionError
                ("Unsupported image format: " +:+ derived_suffix guess filetype)))
  ∧ (∀ msg,
       magic [] = Throws msg →
       ∀ guess',
         PageInfo_init magic guess' probe IMAGE_FORMAT self [] =
           Raise (LibError "magic" msg)).
Proof.
  split.
  - intros filetype Hft Hout. unfold PageInfo_init.
    rewrite setter_run, Hft. by rewrite bool_decide_eq_false_2.
  - intros msg Hthrow guess'. unfold PageInfo_init.
    by rewrite setter_run, Hthrow.
Qed.

(** A successful assignment leaves an allow-listed suffix. *)
Lemma successful_assignment_suffix magic guess probe IMAGE_FORMAT value self self' :
  content_setter magic guess probe IMAGE_FORMAT value self = (self', Ok tt) →
  ∃ sfx, suffix self' = Some sfx ∧ sfx ∈ IMAGE_FORMAT.
Proof.
  intros Hrun. apply setter_ok_inv in Hrun as (ft & wh & _ & Hin & _ & ->).
  by exists (derived_suffix guess ft).
Qed.

(** Saving an object that has content and loading the path again is the
    construction from the saved bytes. *)
Lemma save_then_load magic guess probe IMAGE_FORMAT s c p fs self' :
  __content s = Some c →
  (save s (PathStr p) fs).2 = Ok tt
  ∧ load magic guess probe IMAGE_FORMAT (save s (PathStr p) fs).1 self'
      (PathStr p)
    = PageInfo_init magic guess probe IMAGE_FORMAT self' c.
Proof.
  intros Hc. unfold save, content, load. rewrite Hc. cbn.
  by rewrite lookup_insert_eq.
Qed.

(** The round trip of an object whose last assignment returned: the
    reloaded object equals the saved one. *)
Lemma roundtrip_after_successful_assignment
    magic guess probe IMAGE_FORMAT value self s p fs self' :
  content_setter magic guess probe IMAGE_FORMAT value self = (s, Ok tt) →
  load magic guess probe IMAGE_FORMAT (save s (PathStr p) fs).1 self'
    (PathStr p) = Ok s.
Proof.
  intros Hrun.
  pose proof Hrun as (ft & wh & Hft & Hin & Hwh & ->)%setter_ok_inv.
  destruct (save_then_load magic guess probe IMAGE_FORMAT
              (committed (derived_suffix guess ft) wh value) value p fs self'
              eq_refl) as [_ ->].
  apply init_ok. rewrite setter_run, Hft, Hwh.
  by rewrite bool_decide_eq_true_2.
Qed.

(** * Concrete runs *)

Example construct_gif :
  Ref.PageInfo_init Ref.blank Ref.gif_10x20 = Ok Ref.gif_page.
Proof. vm_compute. reflexivity. Qed.

Example construct_text :
  Ref.PageInfo_init Ref.blank Ref.text_hello =
    Raise (AssertionError "Unsupported image format: .txt").
Proof. vm_compute. reflexivity. Qed.

Example replace_gif_by_text :
  Ref.content_setter Ref.text_hello Ref.gif_page =
    (Ref.gif_page_after_text,
     Raise (AssertionError "Unsupported image format: .txt")).
Proof. vm_compute. reflexivity. Qed.

Lemma gif_page_after_text_reachable :
  Ref.reachable Ref.gif_page_after_text.
Proof.
  change Ref.gif_page_after_text
    with (Ref.content_setter Ref.text_hello Ref.gif_page).1.
  apply reach_replace, (reach_init Ref.blank Ref.gif_10x20).
  vm_compute. reflexivity.
Qed.

(** C1, on the code.  [gif_page.content = b"hello"] raises the allow-list
    assertion, and the object is not what it was: [suffix] has gone from
    [.gif] to [.txt] while the content is still the GIF. *)
Theorem failed_assignment_overwrites_suffix :
  Ref.PageInfo_init Ref.blank Ref.gif_10x20 = Ok Ref.gif_page
  ∧ Ref.content_setter Ref.text_hello Ref.gif_page =
      (Ref.gif_page_after_text,
       Raise (AssertionError "Unsupported image format: .txt"))
  ∧ suffix Ref.gif_page = Some ".gif"
  ∧ suffix Ref.gif_page_after_text = Some ".txt"
  ∧ __content Ref.gif_page_after_text = Some Ref.gif_10x20
  ∧ Ref.gif_page_after_text ≠ Ref.gif_page.
Proof.
  split; [exact construct_gif|].
  split; [exact replace_gif_by_text|].
  repeat split. discriminate.
Qed.

(** C3, on the code.  The object that survives the failed assignment is
    reachable and its stored suffix, [.txt], is outside the allow-list. *)
Theorem failed_assignment_leaves_rejected_suffix :
  Ref.reachable Ref.gif_page_after_text
  ∧ suffix Ref.gif_page_after_text = Some ".txt"
  ∧ (".txt" ∉ IMAGE_FORMAT_spec).
Proof.
  split; [exact gif_page_after_text_reachable|].
  split; [reflexivity|].
  apply (bool_decide_eq_false_1 (".txt" ∈ IMAGE_FORMAT_spec)). reflexivity.
Qed.

(** C7, on the code.  Saving the object that survived the failed assignment
    and loading the path again gives the same content but another suffix:
    [.gif], derived from the bytes, against the stored [.txt]. *)
Theorem roundtrip_after_failed_assignment :
  let original := Ref.gif_page_after_text in
  let saved := save original (PathStr "page.gif") ∅ in
  Ref.reachable original
  ∧ saved.2 = Ok tt
  ∧ Ref.load saved.1 Ref.blank (PathStr "page.gif") = Ok Ref.gif_page
  ∧ __content Ref.gif_page = __content original
  ∧ suffix Ref.gif_page = Some ".gif"
  ∧ suffix original = Some ".txt".
Proof.
  cbv zeta.
  destruct (save_then_load Ref.magic_from_buffer Ref.guess_extension
              Ref.imagesize_get IMAGE_FORMAT_spec Ref.gif_page_after_text
              Ref.gif_10x20 "page.gif" ∅ Ref.blank eq_refl) as [Hsaved Hload].
  split; [exact gif_page_after_text_reachable|].
  split; [exact Hsaved|].
  split; [|by repeat split].
  unfold Ref.load. rewrite Hload. exact construct_gif.
Qed.

(** C2, against the claim: the truncated GIF header is accepted, the probe
    answers [(-1, -1)], both ints, and these are stored: the width is
    negative, not 0. *)
Lemma truncated_gif_negative_dimensions :
  ∃ s, Ref.PageInfo_init Ref.blank Ref.gif_truncated = Ok s
       ∧ Ref.imagesize_get Ref.gif_truncated = Returns (PyInt (-1), PyInt (-1))
       ∧ image_width s = PyInt (-1)
       ∧ image_height s = PyInt (-1)
       ∧ nonnegative_int (image_width s) = false
       ∧ nonnegative_int (image_height s) = false.
Proof.
  eexists. split; [vm_compute; reflexivity|].
  split; [vm_compute; reflexivity|]. by repeat split.
Qed.

(** C4, against the claim: the sniffer classifies the empty buffer, the
    mapping runs and falls back to [.bin], and construction ends in the same
    [AssertionError] as the rejection of a text buffer. *)
Lemma empty_input_reaches_mapping :
  Ref.magic_from_buffer [] = Returns "application/x-empty"
  ∧ derived_suffix Ref.guess_extension "application/x-empty" = ".bin"
  ∧ Ref.PageInfo_init Ref.blank [] =
      Raise (AssertionError "Unsupported image format: .bin")
  ∧ Ref.PageInfo_init Ref.blank Ref.text_hello =
      Raise (AssertionError "Unsupported image format: .txt").
Proof. repeat split; vm_compute; reflexivity. Qed.

(** * Instances of the conditional theorems *)

Lemma failed_assignment_frame_witness :
  __content Ref.gif_page_after_text = __content Ref.gif_page
  ∧ image_width Ref.gif_page_after_text = image_width Ref.gif_page
  ∧ image_height Ref.gif_page_after_text = image_height Ref.gif_page
  ∧ image_size Ref.gif_page_after_text = image_size Ref.gif_page
  ∧ (suffix Ref.gif_page_after_text = suffix Ref.gif_page
     ∨ ∃ filetype,
         Ref.magic_from_buffer Ref.text_hello = Returns filetype
         ∧ suffix Ref.gif_page_after_text =
             Some (derived_suffix Ref.guess_extension filetype)).
Proof.
  apply (failed_assignment_frame Ref.magic_from_buffer Ref.guess_extension
           Ref.imagesize_get IMAGE_FORMAT_spec Ref.text_hello Ref.gif_page
           Ref.gif_page_after_text
           (AssertionError "Unsupported image format: .txt")).
  vm_compute. reflexivity.
Defined.

Lemma reachable_image_size_witness :
  ∃ c, __content Ref.gif_page_after_text = Some c
       ∧ image_size Ref.gif_page_after_text = PyInt (Z.of_nat (length c)).
Proof.
  apply (reachable_image_size Ref.magic_from_buffer Ref.guess_extension
           Ref.imagesize_get IMAGE_FORMAT_spec Ref.gif_page_after_text).
  change Ref.gif_page_after_text
    with (Ref.content_setter Ref.text_hello Ref.gif_page).1.
  apply reach_replace, (reach_init Ref.blank Ref.gif_10x20).
  vm_compute. reflexivity.
Defined.

Lemma dimensions_checked_by_type_witness :
  ∃ s, Ref.PageInfo_init Ref.blank Ref.gif_truncated = Ok s
       ∧ isinstance_int (image_width s) = true
       ∧ isinstance_int (image_height s) = true
       ∧ (image_width s, image_height s) = (PyInt (-1), PyInt (-1)).
Proof.
  apply (dimensions_checked_by_type Ref.magic_from_buffer Ref.guess_extension
           Ref.imagesize_get IMAGE_FORMAT_spec Ref.blank Ref.gif_truncated
           "image/gif" (PyInt (-1)) (PyInt (-1))).
  - vm_compute. reflexivity.
  - apply (bool_decide_eq_true_1 (".gif" ∈ IMAGE_FORMAT_spec)).
    vm_compute. reflexivity.
  - vm_compute. reflexivity.
Defined.

Lemma unmapped_type_falls_back_to_bin_witness :
  derived_suffix Ref.guess_extension "application/x-empty" = ".bin"
  ∧ (".bin" ∉ IMAGE_FORMAT_spec)
  ∧ Ref.PageInfo_init Ref.blank [] =
      Raise (AssertionError "Unsupported image format: .bin").
Proof.
  apply (unmapped_type_falls_back_to_bin Ref.magic_from_buffer
           Ref.guess_extension Ref.imagesize_get Ref.blank []
           "application/x-empty"); vm_compute; reflexivity.
Defined.

Lemma empty_input_failure_witness :
  Ref.PageInfo_init Ref.blank [] =
    Raise (AssertionError "Unsupported image format: .bin").
Proof.
  apply (proj1 (empty_input_failure Ref.magic_from_buffer Ref.guess_extension
                  Ref.imagesize_get IMAGE_FORMAT_spec Ref.blank)
           "application/x-empty").
  - vm_compute. reflexivity.
  - apply (bool_decide_eq_false_1 (".bin" ∈ IMAGE_FORMAT_spec)).
    vm_compute. reflexivity.
Defined.

(** * Further facts about the setter, the loaders and the saver *)

Section PageExtras.

Variable magic_from_buffer : bytes → ext_result string.
Variable guess_extension : string → option string.
Variable imagesize_get : bytes → ext_result (pyval * pyval).
Variable IMAGE_FORMAT : list string.

Local Abbreviation derived := (derived_suffix guess_extension).
Local Abbreviation setter :=
  (content_setter magic_from_buffer guess_extension imagesize_get
     IMAGE_FORMAT).
Local Abbreviation init :=
  (PageInfo_init magic_from_buffer guess_extension imagesize_get
     IMAGE_FORMAT).
Local Abbreviation reach :=
  (reachable magic_from_buffer guess_extension imagesize_get IMAGE_FORMAT).
Local Abbreviation consistent :=
  (derived_from_content magic_from_buffer guess_extension imagesize_get
     IMAGE_FORMAT).

Lemma setter_accepts value self filetype wh :
  magic_from_buffer value = Returns filetype →
  derived filetype ∈ IMAGE_FORMAT →
  imagesize_get value = Returns wh →
  setter value self = (committed (derived filetype) wh value, Ok tt).
Proof.
  intros Hft Hin Hwh. rewrite setter_run, Hft, Hwh.
  by rewrite bool_decide_eq_true_2.
Qed.

Lemma committed_consistent filetype wh value :
  magic_from_buffer value = Returns filetype →
  derived filetype ∈ IMAGE_FORMAT →
  imagesize_get value = Returns wh →
  consistent (committed (derived filetype) wh value).
Proof. intros Hft Hin Hwh. by exists value, filetype, wh. Qed.

Lemma setter_preserves_consistent value s :
  consistent s → consistent (setter value s).1.
Proof.
  intros Hs. destruct (setter value s) as [s' [[]|e]] eqn:Hrun; cbn.
  - apply setter_ok_inv in Hrun as (ft & wh & Hft & Hin & Hwh & ->).
    by apply committed_consistent.
  - apply setter_raise_inv in Hrun as [[-> _]|(ft & _ & -> & _)]; [done|].
    destruct Hs as (c & ft' & wh & Hs). by exists c, ft', wh.
Qed.

Lemma reachable_consistent s : reach s → consistent s.
Proof.
  induction 1 as [self value s Hinit|s value _ IH].
  - apply init_ok, setter_ok_inv in Hinit as (ft & wh & Hft & Hin & Hwh & ->).
    by apply committed_consistent.
  - by apply setter_preserves_consistent.
Qed.

Lemma derived_suffix_nonempty filetype : derived filetype ≠ "".
Proof.
  unfold derived_suffix, py_or.
  destruct (guess_extension filetype) as [sfx|]; [|done].
  by case_bool_decide.
Qed.

Lemma with_suffix_fixed sfx self :
  with_suffix sfx self = self ↔ suffix self = Some sfx.
Proof.
  destruct self as [sf w h sz c]; unfold with_suffix; cbn.
  split; [by intros [= ->]|by intros ->].
Qed.

Lemma save_to_named_path s c path p fs :
  __content s = Some c →
  path_string path = Some p →
  save s path fs = (<[p := c]> fs, Ok tt).
Proof.
  intros Hc Hp. unfold save, content. rewrite Hc.
  destruct path as [q|q|r]; simplify_eq/=; by rewrite insert_insert_eq.
Qed.

Lemma load_from_named_path fs self path p data :
  path_string path = Some p →
  fs !! p = Some data →
  load magic_from_buffer guess_extension imagesize_get IMAGE_FORMAT fs self
    path = init self data.
Proof.
  intros Hp Hdata. unfold load.
  destruct path as [q|q|r]; simplify_eq/=; by rewrite Hdata.
Qed.

(** X1. After an assignment to [content] that returns, the getter gives back
    exactly the assigned bytes, the stored suffix is in the allow-list,
    [image_size] is the length of the bytes and both dimensions are ints. *)
Theorem accepted_assignment_postcondition value self self' :
  content_setter magic_from_buffer guess_extension imagesize_get IMAGE_FORMAT
    value self = (self', Ok tt) →
  content self' = (self', Ok value)
  ∧ (∃ sfx, suffix self' = Some sfx ∧ sfx ∈ IMAGE_FORMAT)
  ∧ image_size self' = PyInt (Z.of_nat (length value))
  ∧ isinstance_int (image_width self') = true
  ∧ isinstance_int (image_height self') = true.
Proof.
  intros (ft & wh & _ & Hin & _ & ->)%setter_ok_inv.
  destruct (checked_dimensions_int wh) as [Hw Hh].
  split; [reflexivity|]. split; [by exists (derived ft)|]. by repeat split.
Qed.

(** X2. Construction returns an object exactly when the sniffer returns a
    type, the suffix derived from it is in the allow-list, and the probe
    returns; the state the base class left plays no part. *)
Theorem construction_succeeds_iff self value :
  (∃ s, PageInfo_init magic_from_buffer guess_extension imagesize_get
          IMAGE_FORMAT self value = Ok s)
  ↔ ∃ filetype wh,
      magic_from_buffer value = Returns filetype
      ∧ derived_suffix guess_extension filetype ∈ IMAGE_FORMAT
      ∧ imagesize_get value = Returns wh.
Proof.
  split.
  - intros [s (ft & wh & Hft & Hin & Hwh & _)%init_ok%setter_ok_inv].
    by exists ft, wh.
  - intros (ft & wh & Hft & Hin & Hwh).
    exists (committed (derived ft) wh value).
    by apply init_ok, setter_accepts.
Qed.

(** X3. The setter raises nothing but these: the [AssertionError] whose
    message names the derived suffix, raised exactly for a suffix outside
    the allow-list; the sniffer's exception; the probe's exception. *)
Theorem setter_exception_classes value self self' e :
  content_setter magic_from_buffer guess_extension imagesize_get IMAGE_FORMAT
    value self = (self', Raise e) →
  (∃ filetype,
     magic_from_buffer value = Returns filetype
     ∧ (derived_suffix guess_extension filetype ∉ IMAGE_FORMAT)
     ∧ e = AssertionError
             ("Unsupported image format: "
              +:+ derived_suffix guess_extension filetype))
  ∨ (∃ msg, magic_from_buffer value = Throws msg ∧ e = LibError "magic" msg)
  ∨ (∃ msg, imagesize_get value = Throws msg ∧ e = LibError "imagesize" msg).
Proof.
  intros [[_ (msg & Hthrow & ->)]
         |(ft & Hft & _ & [[Hout ->]|[_ (msg & Hthrow & ->)]])]%setter_raise_inv.
  - right; left. by exists msg.
  - left. by exists ft.
  - right; right. by exists msg.
Qed.

(** X4. A failed assignment leaves the object exactly as it was if and only
    if the sniffer raised, or the suffix derived from the new bytes is the
    one the object already had. *)
Theorem failed_assignment_unchanged_iff value self self' e :
  content_setter magic_from_buffer guess_extension imagesize_get IMAGE_FORMAT
    value self = (self', Raise e) →
  self' = self
  ↔ (∃ msg, magic_from_buffer value = Throws msg)
    ∨ (∃ filetype,
         magic_from_buffer value = Returns filetype
         ∧ suffix self = Some (derived_suffix guess_extension filetype)).
Proof.
  intros [[-> (msg & Hthrow & _)]|(ft & Hft & -> & _)]%setter_raise_inv.
  - split; [|done]. intros _. left. by exists msg.
  - rewrite with_suffix_fixed. split.
    + intros Hsfx. right. by exists ft.
    + intros [[msg Hthrow]|(ft' & Hft' & Hsfx)]; congruence.
Qed.


(** X6. On every object of a run, assigning the object's own content back
    returns: content, width, height and size stay as they are and the
    suffix is again one of the allow-list, also after a failed assignment
    had overwritten it. *)
Theorem reassigning_own_content_repairs s :
  reachable magic_from_buffer guess_extension imagesize_get IMAGE_FORMAT s →
  ∃ c s',
    __content s = Some c
    ∧ content_setter magic_from_buffer guess_extension imagesize_get
        IMAGE_FORMAT c s = (s', Ok tt)
    ∧ __content s' = __content s
    ∧ image_width s' = image_width s
    ∧ image_height s' = image_height s
    ∧ image_size s' = image_size s
    ∧ ∃ sfx, suffix s' = Some sfx ∧ sfx ∈ IMAGE_FORMAT.
Proof.
  intros (c & ft & wh & Hc & Hft & Hin & Hwh & Hw & Hh & Hsz)%reachable_consistent.
  exists c, (committed (derived ft) wh c).
  split; [done|]. split; [by apply setter_accepts|].
  cbn. repeat split; try done. by exists (derived ft).
Qed.

(** X7. On every object of a run, also after failed assignments, the stored
    content is a buffer the sniffer classifies into the allow-list, and
    [image_width], [image_height] and [image_size] are the checked probe
    result and the length of that very content. *)
Theorem reachable_dimensions_from_content s :
  reachable magic_from_buffer guess_extension imagesize_get IMAGE_FORMAT s →
  ∃ c filetype wh,
    __content s = Some c
    ∧ magic_from_buffer c = Returns filetype
    ∧ derived_suffix guess_extension filetype ∈ IMAGE_FORMAT
    ∧ imagesize_get c = Returns wh
    ∧ (image_width s, image_height s) = checked_dimensions wh
    ∧ image_size s = PyInt (Z.of_nat (length c)).
Proof.
  intros (c & ft & wh & Hc & Hft & Hin & Hwh & Hw & Hh & Hsz)%reachable_consistent.
  exists c, ft, wh. repeat split; try done.
  rewrite Hw, Hh. by destruct (checked_dimensions wh).
Qed.

(** X8. On every object of a run the attribute [suffix] exists and is not
    the empty string: an empty or missing extension is replaced by [.bin]
    before it is stored. *)
Theorem reachable_suffix_nonempty s :
  reachable magic_from_buffer guess_extension imagesize_get IMAGE_FORMAT s →
  ∃ sfx, suffix s = Some sfx ∧ sfx ≠ "".
Proof.
  induction 1 as [self value s Hinit|s value _ IH].
  - apply init_ok, setter_ok_inv in Hinit as (ft & wh & _ & _ & _ & ->).
    exists (derived ft). split; [done|]. apply derived_suffix_nonempty.
  - destruct (setter value s) as [s' [[]|e]] eqn:Hrun; cbn.
    + apply setter_ok_inv in Hrun as (ft & wh & _ & _ & _ & ->).
      exists (derived ft). split; [done|]. apply derived_suffix_nonempty.
    + apply setter_raise_inv in Hrun as [[-> _]|(ft & _ & -> & _)]; [done|].
      exists (derived ft). split; [done|]. apply derived_suffix_nonempty.
Qed.

(** X9. When [load] returns an object, the path was a [str] or a [Path]
    naming an existing file, and the object is the one constructed from
    that file's bytes, which the getter gives back unmodified. *)
Theorem load_returns_file_bytes fs self path s :
  load magic_from_buffer guess_extension imagesize_get IMAGE_FORMAT fs self
    path = Ok s →
  ∃ p data,
    path_string path = Some p
    ∧ fs !! p = Some data
    ∧ PageInfo_init magic_from_buffer guess_extension imagesize_get
        IMAGE_FORMAT self data = Ok s
    ∧ content s = (s, Ok data).
Proof.
  unfold load. intros Hload.
  assert (∃ p, path_string path = Some p ∧
               match fs !! p with
               | None => Raise (FileNotFoundError p)
               | Some data => init self data
               end = Ok s) as (p & Hp & Hrun).
  { destruct path as [q|q|r]; [by exists q..|discriminate]. }
  destruct (fs !! p) as [data|] eqn:Hdata; [|discriminate].
  exists p, data. repeat split; try done.
  apply init_ok, setter_ok_inv in Hrun as (ft & wh & _ & _ & _ & ->).
  reflexivity.
Qed.


End PageExtras.

Section SaveLoadExtras.

Variable magic_from_buffer : bytes → ext_result string.
Variable guess_extension : string → option string.
Variable imagesize_get : bytes → ext_result (pyval * pyval).
Variable IMAGE_FORMAT : list string.

(** X11. [save] changes no file but the one it is given: every other path
    holds afterwards what it held before, whether the write went through or
    the call raised; an argument that is no path changes nothing at all. *)
Theorem save_touches_only_its_path (s : PageInfo) (path : path_arg)
    (fs : gmap string bytes) (q : string) :
  path_string path ≠ Some q →
  (save s path fs).1 !! q = fs !! q.
Proof.
  intros Hq. unfold save, content.
  destruct path as [p|p|r]; cbn in *; [| |done].
  all: assert (p ≠ q) by congruence.
  all: destruct (__content s); cbn; by rewrite !lookup_insert_ne.
Qed.

(** X12. Of two saves to the same path the last one wins: the file system
    is the one a single save of the second object leaves, with the second
    object's content at the path, whatever the first object was. *)
Theorem save_last_write_wins (s1 s2 : PageInfo) (c2 : bytes)
    (path1 path2 : path_arg) (p : string) (fs : gmap string bytes) :
  __content s2 = Some c2 →
  path_string path1 = Some p →
  path_string path2 = Some p →
  (save s2 path2 (save s1 path1 fs).1).1 = (save s2 path2 fs).1
  ∧ (save s2 path2 (save s1 path1 fs).1).1 !! p = Some c2.
Proof.
  intros Hc2 Hp1 Hp2.
  rewrite !(save_to_named_path s2 c2 path2 p) by done. cbn.
  split; [|by rewrite lookup_insert_eq].
  unfold save, content.
  destruct path1 as [q|q|r]; simplify_eq/=.
  all: destruct (__content s1); cbn; by rewrite !insert_insert_eq.
Qed.


(** X14. For an object whose last assignment returned, saving it and
    loading the path again, the path given as a [str] or as a [Path] in
    either call, gives back an object equal to it in all five attributes,
    whatever the file held before. *)
Theorem roundtrip_after_accepted_assignment
    (value : bytes) (self s self' : PageInfo) (path1 path2 : path_arg)
    (p : string) (fs : gmap string bytes) :
  content_setter magic_from_buffer guess_extension imagesize_get IMAGE_FORMAT
    value self = (s, Ok tt) →
  path_string path1 = Some p →
  path_string path2 = Some p →
  load magic_from_buffer guess_extension imagesize_get IMAGE_FORMAT
    (save s path1 fs).1 self' path2 = Ok s.
Proof.
  intros Hrun Hp1 Hp2.
  pose proof Hrun as (ft & wh & Hft & Hin & Hwh & ->)%setter_ok_inv.
  rewrite (save_to_named_path _ value path1 p) by done. cbn.
  rewrite (load_from_named_path _ _ _ _ _ _ path2 p value) by
    (done || apply lookup_insert_eq).
  by apply init_ok, setter_accepts.
Qed.

End SaveLoadExtras.

(** X15. A buffer whose derived suffix is outside the allow-list is rejected
    before its dimensions are looked at: the outcome of the assignment is
    the same whatever the probe would do, its exceptions included. *)
Theorem rejected_format_never_probed
    (magic : bytes → ext_result string) (guess : string → option string)
    (probe probe' : bytes → ext_result (pyval * pyval))
    (IMAGE_FORMAT : list string) (value : bytes) (self : PageInfo)
    (filetype : string) :
  magic value = Returns filetype →
  derived_suffix guess filetype ∉ IMAGE_FORMAT →
  content_setter magic guess probe IMAGE_FORMAT value self =
    content_setter magic guess probe' IMAGE_FORMAT value self.
Proof.
  intros Hft Hout. rewrite !setter_run, Hft.
  by rewrite bool_decide_eq_false_2.
Qed.

(** X16. Enlarging the allow-list never turns an accepted buffer away: what
    construction returns under a list it returns, the same object, under
    every list that contains it. *)
Theorem allow_list_monotone
    (magic : bytes → ext_result string) (guess : string → option string)
    (probe : bytes → ext_result (pyval * pyval))
    (IMAGE_FORMAT IMAGE_FORMAT' : list string) (self s : PageInfo)
    (value : bytes) :
  IMAGE_FORMAT ⊆ IMAGE_FORMAT' →
  PageInfo_init magic guess probe IMAGE_FORMAT self value = Ok s →
  PageInfo_init magic guess probe IMAGE_FORMAT' self value = Ok s.
Proof.
  intros Hsub (ft & wh & Hft & Hin & Hwh & ->)%init_ok%setter_ok_inv.
  apply init_ok, setter_accepts; [done| |done]. by apply Hsub.
Qed.

(** * Instances of the further facts *)

Lemma accepted_assignment_postcondition_witness :
  content Ref.gif_page = (Ref.gif_page, Ok Ref.gif_10x20)
  ∧ (∃ sfx, suffix Ref.gif_page = Some sfx ∧ sfx ∈ IMAGE_FORMAT_spec)
  ∧ image_size Ref.gif_page = PyInt (Z.of_nat (length Ref.gif_10x20))
  ∧ isinstance_int (image_width Ref.gif_page) = true
  ∧ isinstance_int (image_height Ref.gif_page) = true.
Proof.
  apply (accepted_assignment_postcondition Ref.magic_from_buffer
           Ref.guess_extension Ref.imagesize_get IMAGE_FORMAT_spec
           Ref.gif_10x20 Ref.blank Ref.gif_page).
  vm_compute. reflexivity.
Defined.

Lemma setter_exception_classes_witness :
  (∃ filetype,
     Ref.magic_from_buffer Ref.text_hello = Returns filetype
     ∧ (derived_suffix Ref.guess_extension filetype ∉ IMAGE_FORMAT_spec)
     ∧ AssertionError "Unsupported image format: .txt" =
         AssertionError
           ("Unsupported image format: "
            +:+ derived_suffix Ref.guess_extension filetype))
  ∨ (∃ msg, Ref.magic_from_buffer Ref.text_hello = Throws msg
            ∧ AssertionError "Unsupported image format: .txt" =
                LibError "magic" msg)
  ∨ (∃ msg, Ref.imagesize_get Ref.text_hello = Throws msg
            ∧ AssertionError "Unsupported image format: .txt" =
                LibError "imagesize" msg).
Proof.
  apply (setter_exception_classes Ref.magic_from_buffer Ref.guess_extension
           Ref.imagesize_get IMAGE_FORMAT_spec Ref.text_hello Ref.gif_page
           Ref.gif_page_after_text).
  vm_compute. reflexivity.
Defined.

Lemma failed_assignment_unchanged_iff_witness :
  Ref.gif_page_after_text = Ref.gif_page
  ↔ (∃ msg, Ref.magic_from_buffer Ref.text_hello = Throws msg)
    ∨ (∃ filetype,
         Ref.magic_from_buffer Ref.text_hello = Returns filetype
         ∧ suffix Ref.gif_page =
             Some (derived_suffix Ref.guess_extension filetype)).
Proof.
  apply (failed_assignment_unchanged_iff Ref.magic_from_buffer
           Ref.guess_extension Ref.imagesize_get IMAGE_FORMAT_spec
           Ref.text_hello Ref.gif_page Ref.gif_page_after_text
           (AssertionError "Unsupported image format: .txt")).
  vm_compute. reflexivity.
Defined.


Lemma reassigning_own_content_repairs_witness :
  ∃ c s',
    __content Ref.gif_page_after_text = Some c
    ∧ Ref.content_setter c Ref.gif_page_after_text = (s', Ok tt)
    ∧ __content s' = __content Ref.gif_page_after_text
    ∧ image_width s' = image_width Ref.gif_page_after_text
    ∧ image_height s' = image_height Ref.gif_page_after_text
    ∧ image_size s' = image_size Ref.gif_page_after_text
    ∧ ∃ sfx, suffix s' = Some sfx ∧ sfx ∈ IMAGE_FORMAT_spec.
Proof.
  apply (reassigning_own_content_repairs Ref.magic_from_buffer
           Ref.guess_extension Ref.imagesize_get IMAGE_FORMAT_spec
           Ref.gif_page_after_text).
  exact gif_page_after_text_reachable.
Defined.

Lemma reachable_dimensions_from_content_witness :
  ∃ c filetype wh,
    __content Ref.gif_page_after_text = Some c
    ∧ Ref.magic_from_buffer c = Returns filetype
    ∧ derived_suffix Ref.guess_extension filetype ∈ IMAGE_FORMAT_spec
    ∧ Ref.imagesize_get c = Returns wh
    ∧ (image_width Ref.gif_page_after_text,
       image_height Ref.gif_page_after_text) = checked_dimensions wh
    ∧ image_size Ref.gif_page_after_text = PyInt (Z.of_nat (length c)).
Proof.
  apply (reachable_dimensions_from_content Ref.magic_from_buffer
           Ref.guess_extension Ref.imagesize_get IMAGE_FORMAT_spec
           Ref.gif_page_after_text).
  exact gif_page_after_text_reachable.
Defined.

Lemma reachable_suffix_nonempty_witness :
  ∃ sfx, suffix Ref.gif_page_after_text = Some sfx ∧ sfx ≠ "".
Proof.
  apply (reachable_suffix_nonempty Ref.magic_from_buffer Ref.guess_extension
           Ref.imagesize_get IMAGE_FORMAT_spec Ref.gif_page_after_text).
  exact gif_page_after_text_reachable.
Defined.

Lemma load_returns_file_bytes_witness :
  ∃ p data,
    path_string (PathObj "page.gif") = Some p
    ∧ ({["page.gif" := Ref.gif_10x20]} : gmap string bytes) !! p = Some data
    ∧ Ref.PageInfo_init Ref.blank data = Ok Ref.gif_page
    ∧ content Ref.gif_page = (Ref.gif_page, Ok data).
Proof.
  apply (load_returns_file_bytes Ref.magic_from_buffer Ref.guess_extension
           Ref.imagesize_get IMAGE_FORMAT_spec
           {["page.gif" := Ref.gif_10x20]} Ref.blank (PathObj "page.gif")
           Ref.gif_page).
  vm_compute. reflexivity.
Defined.

Lemma save_touches_only_its_path_witness :
  (save Ref.gif_page (PathStr "page.gif")
     {["other.png" := Ref.text_hello]}).1 !! "other.png"
  = ({["other.png" := Ref.text_hello]} : gmap string bytes) !! "other.png".
Proof.
  apply (save_touches_only_its_path Ref.gif_page (PathStr "page.gif")
           {["other.png" := Ref.text_hello]} "other.png").
  vm_compute. discriminate.
Defined.

Lemma save_last_write_wins_witness :
  (save Ref.gif_page (PathObj "page.gif")
     (save Ref.blank (PathStr "page.gif") ∅).1).1
  = (save Ref.gif_page (PathObj "page.gif") ∅).1
  ∧ (save Ref.gif_page (PathObj "page.gif")
       (save Ref.blank (PathStr "page.gif") ∅).1).1 !! "page.gif"
    = Some Ref.gif_10x20.
Proof.
  apply (save_last_write_wins Ref.blank Ref.gif_page Ref.gif_10x20
           (PathStr "page.gif") (PathObj "page.gif") "page.gif" ∅);
    reflexivity.
Defined.


Lemma roundtrip_after_accepted_assignment_witness :
  Ref.load (save Ref.gif_page (PathObj "page.gif") ∅).1 Ref.blank
    (PathStr "page.gif") = Ok Ref.gif_page.
Proof.
  apply (roundtrip_after_accepted_assignment Ref.magic_from_buffer
           Ref.guess_extension Ref.imagesize_get IMAGE_FORMAT_spec
           Ref.gif_10x20 Ref.gif_page_after_text Ref.gif_page Ref.blank
           (PathObj "page.gif") (PathStr "page.gif") "page.gif" ∅);
    [vm_compute; reflexivity|reflexivity..].
Defined.

Lemma rejected_format_never_probed_witness :
  Ref.content_setter Ref.text_hello Ref.gif_page =
    content_setter Ref.magic_from_buffer Ref.guess_extension
      (λ _, Throws "Invalid header") IMAGE_FORMAT_spec Ref.text_hello
      Ref.gif_page.
Proof.
  apply (rejected_format_never_probed Ref.magic_from_buffer
           Ref.guess_extension Ref.imagesize_get
           (λ _, Throws "Invalid header") IMAGE_FORMAT_spec Ref.text_hello
           Ref.gif_page "text/plain").
  - vm_compute. reflexivity.
  - apply (bool_decide_eq_false_1
             (derived_suffix Ref.guess_extension "text/plain"
              ∈ IMAGE_FORMAT_spec)).
    vm_compute. reflexivity.
Defined.

Lemma allow_list_monotone_witness :
  PageInfo_init Ref.magic_from_buffer Ref.guess_extension Ref.imagesize_get
    (".tiff" :: IMAGE_FORMAT_spec) Ref.blank Ref.gif_10x20 = Ok Ref.gif_page.
Proof.
  apply (allow_list_monotone Ref.magic_from_buffer Ref.guess_extension
           Ref.imagesize_get IMAGE_FORMAT_spec (".tiff" :: IMAGE_FORMAT_spec)
           Ref.blank Ref.gif_page Ref.gif_10x20).
  - intros x Hx. by constructor.
  - vm_compute. reflexivity.
Defined.

(** X17. When [loads] returns an object, the argument was a [bytes] or a
    [str]; the object is the one constructed from those bytes, respectively
    from the bytes the string decodes to, and the getter gives them back. *)
Theorem loads_returns_given_bytes
    (magic : bytes → ext_result string) (guess : string → option string)
    (probe : bytes → ext_result (pyval * pyval))
    (b64decode : string → ext_result bytes) (IMAGE_FORMAT : list string)
    (self s : PageInfo) (data : loads_arg) :
  loads magic guess probe b64decode IMAGE_FORMAT self data = Ok s →
  ∃ raw,
    (data = DataBytes raw
     ∨ ∃ text, data = DataStr text ∧ b64decode text = Returns raw)
    ∧ PageInfo_init magic guess probe IMAGE_FORMAT self raw = Ok s
    ∧ content s = (s, Ok raw).
Proof.
  unfold loads. intros Hrun.
  assert (∃ raw,
            (data = DataBytes raw
             ∨ ∃ text, data = DataStr text ∧ b64decode text = Returns raw)
            ∧ PageInfo_init magic guess probe IMAGE_FORMAT self raw = Ok s)
    as (raw & Hdata & Hinit).
  { destruct data as [text|raw|r]; cbn in Hrun.
    - destruct (b64decode text) as [raw|msg] eqn:Hdec; [|discriminate].
      exists raw. split; [right; by exists text|done].
    - exists raw. split; [by left|done].
    - discriminate. }
  exists raw. repeat split; try done.
  apply init_ok, setter_ok_inv in Hinit as (ft & wh & _ & _ & _ & ->).
  reflexivity.
Qed.

Example b64decode_hello : Ref.b64decode "aGVsbG8=" = Returns (Ref.b "hello").
Proof. vm_compute. reflexivity. Qed.

Example b64decode_skips_other_characters :
  Ref.b64decode "aGVs bG8=" = Returns (Ref.b "hello")
  ∧ Ref.b64decode "Y=Q==" = Returns (Ref.b "a")
  ∧ Ref.b64decode "YQ==YQ==" = Returns (Ref.b "a").
Proof. repeat split; vm_compute; reflexivity. Qed.

Example b64decode_incomplete_group :
  Ref.b64decode "aGVsbG8" = Throws "Incorrect padding"
  ∧ Ref.b64decode "YQ=" = Throws "Incorrect padding".
Proof. repeat split; vm_compute; reflexivity. Qed.

Example b64decode_gif :
  Ref.b64decode Ref.gif_10x20_base64 = Returns Ref.gif_10x20.
Proof. vm_compute. reflexivity. Qed.

Lemma loads_returns_given_bytes_witness :
  ∃ raw,
    (DataStr Ref.gif_10x20_base64 = DataBytes raw
     ∨ ∃ text, DataStr Ref.gif_10x20_base64 = DataStr text
               ∧ Ref.b64decode text = Returns raw)
    ∧ Ref.PageInfo_init Ref.blank raw = Ok Ref.gif_page
    ∧ content Ref.gif_page = (Ref.gif_page, Ok raw).
Proof.
  apply (loads_returns_given_bytes Ref.magic_from_buffer Ref.guess_extension
           Ref.imagesize_get Ref.b64decode IMAGE_FORMAT_spec Ref.blank
           Ref.gif_page (DataStr Ref.gif_10x20_base64)).
  vm_compute. reflexivity.
Defined.
